(** * Pylot_demo.py: the demonstration script of the Pylot editor

    The script is a flat sequence of top-level statements.  Each statement
    (or indented block) of [src/Pylot_demo.py] is embedded as a computation
    in a small state-and-exception monad [Py]; the whole file is their
    sequential composition [script].  The editor executes the file block by
    block, so every block is a definition of its own and can be run from an
    arbitrary interpreter state.

    What is modelled:
    - the module globals, as a finite map from names to values;
    - everything the script does to the outside world, as a chronological
      trace of events: writes to standard output, sleeps, and calls into
      the plotting library;
    - the process environment (arguments, environment variables, files,
      installed third-party packages), which only [import] consults;
    - exceptions, which abort the rest of the computation.

    Python 3 semantics are assumed ([print] is a function, [/] is true
    division).  The built-in names [print], [range], [float] and [True] are
    taken to denote the built-ins; the script never rebinds them.  Calls
    into [time], [numpy] and [matplotlib] are assumed to return normally
    once the module has been imported.  Floating-point numbers and arrays
    are not computed: they are kept as symbolic terms over the operations
    the script applies to them. *)

From Stdlib Require Import ZArith String Ascii List Lia.
From stdpp Require Import base gmap strings list.

Local Open Scope Z_scope.
Local Open Scope string_scope.
Local Open Scope list_scope.

(** ** Values *)

(** Floats and numpy arrays, symbolically.  [NDec m e] is the decimal
    literal m * 10^e as written in the source; [NRandn k n] and
    [NRand k n] are the k-th draw from the generator, of n samples. *)
Inductive num : Type :=
| NInt (z : Z)
| NDec (m : Z) (e : Z)
| NPi
| NFloat (a : num)
| NAdd (a b : num)
| NSub (a b : num)
| NMul (a b : num)
| NDiv (a b : num)
| NLinspace (a b : num) (n : Z)
| NRandn (draw : nat) (n : Z)
| NRand (draw : nat) (n : Z)
| NItem (a : num) (k : nat)
| NCumsum (a : num)
| NCos (a : num)
| NSin (a : num)
| NPlasma (a : num).

Declare Scope num_scope.
Delimit Scope num_scope with num.
Bind Scope num_scope with num.
Infix "+" := NAdd : num_scope.
Infix "-" := NSub : num_scope.
Infix "*" := NMul : num_scope.
Infix "/" := NDiv : num_scope.

Inductive value : Type :=
| VInt (z : Z)
| VStr (s : string)
| VNum (x : num)
| VModule (name : string)
| VFigure (k : nat).

Inductive exn : Type :=
| ZeroDivisionError
| NameError (name : string)
| TypeError
| AttributeError
| ModuleNotFoundError (name : string).

(** ** Events and state *)

(** What [sys.stdout.write] receives: literal text, or the [str] of a
    float, whose digits are not modelled. *)
Inductive out : Type :=
| OText (s : string)
| ORepr (x : num).

Inductive event : Type :=
| EWrite (o : out)
| ESleep (secs : Z)
| EFigure
| EPlot (x y : num) (kw : list (string * num))
| EFillBetween (x y1 y2 : num) (kw : list (string * num))
| EShow.

Record environment : Type := {
  argv : list string;
  environ : gmap string string;
  files : gmap string string;
  site_packages : list string
}.

Record state : Type := {
  env : environment;
  globals : gmap string value;
  trace : list event;
  draws : nat
}.

(** A freshly started interpreter. *)
Definition initial (e : environment) : state :=
  {| env := e; globals := ∅; trace := []; draws := 0 |}.

Definition set_global (x : string) (v : value) (s : state) : state :=
  {| env := env s; globals := <[x := v]> (globals s);
     trace := trace s; draws := draws s |}.

Definition add_events (es : list event) (s : state) : state :=
  {| env := env s; globals := globals s;
     trace := trace s ++ es; draws := draws s |}.

Definition next_draw (s : state) : state :=
  {| env := env s; globals := globals s;
     trace := trace s; draws := S (draws s) |}.

(** ** The monad *)

Inductive result (A : Type) : Type :=
| Ok (a : A)
| Raise (e : exn).
Arguments Ok {A} a.
Arguments Raise {A} e.

Definition Py (A : Type) : Type := state -> result A * state.

Definition ret {A} (a : A) : Py A := fun s => (Ok a, s).

Definition bind {A B} (m : Py A) (k : A -> Py B) : Py B :=
  fun s => match m s with
           | (Ok a, s') => k a s'
           | (Raise e, s') => (Raise e, s')
           end.

Definition raise {A} (e : exn) : Py A := fun s => (Raise e, s).

#[global] Instance Py_ret : MRet Py := @ret.
#[global] Instance Py_bind : MBind Py := fun A B k m => bind m k.

Definition get : Py state := fun s => (Ok s, s).
Definition modify (f : state -> state) : Py unit := fun s => (Ok tt, f s).
Definition emit (es : list event) : Py unit := modify (add_events es).

(** ** Names *)

(** [x = v] at top level. *)
Definition assign (x : string) (v : value) : Py unit := modify (set_global x v).

Definition load (x : string) : Py value :=
  s ← get;
  match globals s !! x with
  | Some v => ret v
  | None => raise (NameError x)
  end.

Definition load_int (x : string) : Py Z :=
  v ← load x;
  match v with
  | VInt z => ret z
  | _ => raise TypeError
  end.

(** A variable used as a number in float or array arithmetic. *)
Definition load_num (x : string) : Py num :=
  v ← load x;
  match v with
  | VNum a => ret a
  | VInt z => ret (NInt z)
  | _ => raise TypeError
  end.

(** [var.attr] where the script expects [var] to be the module [m]. *)
Definition modref (x : string) (m : string) : Py unit :=
  v ← load x;
  match v with
  | VModule m' => if String.eqb m' m then ret tt else raise AttributeError
  | _ => raise AttributeError
  end.

(** Modules compiled into the interpreter. *)
Definition builtin_modules : list string := ["time"; "sys"; "builtins"].

Definition importable (e : environment) (pkg : string) : bool :=
  bool_decide (pkg ∈ builtin_modules) || bool_decide (pkg ∈ site_packages e).

(** [import m] / [import m as x], where [pkg] is the top-level package
    of [m]. *)
Definition import_as (pkg m x : string) : Py unit :=
  s ← get;
  if importable (env s) pkg then assign x (VModule m)
  else raise (ModuleNotFoundError pkg).

(** ** Built-ins *)

Definition nl : string := String "010"%char EmptyString.

(** [s * n] on a string. *)
Definition str_mul (s : string) (n : Z) : string :=
  Nat.iter (Z.to_nat n) (String.append s) EmptyString.

(** [a / b] for a Python int or float [a] and an int [b]. *)
Definition truediv (a : num) (b : Z) : Py num :=
  if (b =? 0)%Z then raise ZeroDivisionError else ret (a / NInt b)%num.

(** [range(n)] *)
Definition range (n : Z) : list value :=
  map (fun k => VInt (Z.of_nat k)) (seq 0 (Z.to_nat n)).

(** [print(o1, ..., ok)]: each object, separated by a space, then a newline;
    one [write] per piece, as the interpreter does. *)
Fixpoint write_args (first : bool) (objs : list out) : list event :=
  match objs with
  | [] => []
  | o :: rest =>
      (if first then [] else [EWrite (OText " ")])
        ++ EWrite o :: write_args false rest
  end.

Definition print (objs : list out) : Py unit :=
  emit (write_args true objs ++ [EWrite (OText nl)]).

(** [for var in xs: body] *)
Fixpoint for_ (x : string) (xs : list value) (body : Py unit) : Py unit :=
  match xs with
  | [] => ret tt
  | v :: xs' => assign x v ;; body ;; for_ x xs' body
  end.

(** [if c: body] *)
Definition if_ (c : bool) (body : Py unit) : Py unit :=
  if c then body else ret tt.

(** A suite of statements, executed in order. *)
Fixpoint exec (ss : list (Py unit)) : Py unit :=
  match ss with
  | [] => mret tt
  | m :: ss' => m ;; exec ss'
  end.

(** ** Library calls *)

Definition time_sleep (secs : Z) : Py unit := emit [ESleep secs].

Definition random_randn (n : Z) : Py num :=
  s ← get; modify next_draw ;; ret (NRandn (draws s) n).

Definition random_rand (n : Z) : Py num :=
  s ← get; modify next_draw ;; ret (NRand (draws s) n).

Definition is_show (e : event) : bool :=
  match e with EShow => true | _ => false end.
Definition is_figure (e : event) : bool :=
  match e with EFigure => true | _ => false end.
Definition is_plot (e : event) : bool :=
  match e with EPlot _ _ _ => true | _ => false end.
Definition is_fill_between (e : event) : bool :=
  match e with EFillBetween _ _ _ _ => true | _ => false end.

Definition count (p : event -> bool) (t : list event) : nat :=
  length (List.filter p t).

(** [plt.figure()]: figures are numbered from 1. *)
Definition plt_figure : Py value :=
  s ← get; emit [EFigure] ;; ret (VFigure (S (count is_figure (trace s)))).

Definition plt_plot (x y : num) (kw : list (string * num)) : Py unit :=
  emit [EPlot x y kw].

Definition plt_fill_between (x y1 y2 : num) (kw : list (string * num)) : Py unit :=
  emit [EFillBetween x y1 y2 kw].

Definition plt_show : Py unit := emit [EShow].

(** ** Observations on a trace *)

Fixpoint stdout (t : list event) : list out :=
  match t with
  | [] => []
  | EWrite o :: t' => o :: stdout t'
  | _ :: t' => stdout t'
  end.

(** The characters written, when they are all literal text. *)
Fixpoint text (os : list out) : option string :=
  match os with
  | [] => Some EmptyString
  | OText s :: os' => option_map (String.append s) (text os')
  | ORepr _ :: _ => None
  end.

Definition stdout_text (t : list event) : option string := text (stdout t).

Fixpoint slept (t : list event) : Z :=
  match t with
  | [] => 0
  | ESleep d :: t' => d + slept t'
  | _ :: t' => slept t'
  end.


(** ** The script, block by block *)

Module Script.

(** Line 6: [print("hello world!")] *)
Definition line6 : Py unit := print [OText "hello world!"].

(** Line 9: [1+2].  As a statement of a script the value is computed
    and dropped. *)
Definition expr9 : Py Z := mret (1 + 2).
Definition line9 : Py unit := expr9 ;; mret tt.

(** Lines 12-14: [multiline = ...], a triple-quoted literal of three lines. *)
Definition multiline_literal : string :=
  "Multi-line commands without" +:+ nl +:+
  "indent can be executed with the cursor" +:+ nl +:+
  "anywhere in the block".
Definition lines12_14 : Py unit := assign "multiline" (VStr multiline_literal).

(** Line 17: [import time] *)
Definition line17 : Py unit := import_as "time" "time" "time".

(** Lines 19-20, the body of the wait loop. *)
Definition wait_body : Py unit :=
  i ← load_int "i";
  print [OText "Wait"; OText (str_mul "* " i)] ;;
  modref "time" "time" ;;
  time_sleep 1.

(** Lines 18-20: [for i in 5,4,3,2,1: ...] *)
Definition lines18_20 : Py unit :=
  for_ "i" [VInt 5; VInt 4; VInt 3; VInt 2; VInt 1] wait_body.

(** Line 24: the arguments are evaluated left to right, then [print]
    is called. *)
Definition line24 : Py unit :=
  q ← truediv (NInt 5) 0;
  print [OText "The result is:"; ORepr q].

(** Lines 22-24: [if True: ...] *)
Definition lines22_24 : Py unit :=
  if_ true (print [OText "We divide 5 by zero:"] ;; line24).

(** Lines 28-29: [import numpy], [import matplotlib.pyplot as plt] *)
Definition line28 : Py unit := import_as "numpy" "numpy" "numpy".
Definition line29 : Py unit := import_as "matplotlib" "matplotlib.pyplot" "plt".

(** Lines 31 and 41: [fig = plt.figure()] *)
Definition new_figure : Py unit :=
  modref "plt" "matplotlib.pyplot" ;;
  f ← plt_figure;
  assign "fig" f.

(** Line 32: [x = numpy.linspace(0,10,500)] *)
Definition line32 : Py unit :=
  modref "numpy" "numpy" ;;
  assign "x" (VNum (NLinspace (NInt 0) (NInt 10) 500)).

(** Lines 34-36, the body of the first plot loop.  A name read several
    times in one statement is loaded once. *)
Definition fig1_body : Py unit :=
  (* y = 0.2*numpy.cumsum(numpy.random.randn(500)) *)
  modref "numpy" "numpy" ;;
  r ← random_randn 500;
  assign "y" (VNum (NDec 2 (-1) * NCumsum r)) ;;
  (* plt.plot(x, y+5*i) *)
  modref "plt" "matplotlib.pyplot" ;;
  x ← load_num "x";
  y ← load_num "y";
  i ← load_int "i";
  plt_plot x (y + NInt (5 * i)) [] ;;
  (* plt.fill_between(x, y+5*i-0.1*y-1, y+5*i+0.1*y+1, alpha=0.2) *)
  modref "plt" "matplotlib.pyplot" ;;
  x ← load_num "x";
  y ← load_num "y";
  i ← load_int "i";
  plt_fill_between x
    (y + NInt (5 * i) - NDec 1 (-1) * y - NInt 1)
    (y + NInt (5 * i) + NDec 1 (-1) * y + NInt 1)
    [("alpha", NDec 2 (-1))].

(** Lines 33-36: [for i in 1,2,3: ...] *)
Definition lines33_36 : Py unit :=
  for_ "i" [VInt 1; VInt 2; VInt 3] fig1_body.

(** Line 37 and line 48: [plt.show()] *)
Definition show : Py unit :=
  modref "plt" "matplotlib.pyplot" ;; plt_show.

(** Line 42: [n, (r0, r1) = 100, numpy.random.rand(2)] *)
Definition line42 : Py unit :=
  modref "numpy" "numpy" ;;
  r ← random_rand 2;
  assign "n" (VInt 100) ;;
  assign "r0" (VNum (NItem r 0)) ;;
  assign "r1" (VNum (NItem r 1)).

(** Lines 44-47, the body of the second plot loop. *)
Definition fig2_body : Py unit :=
  (* t = numpy.linspace(i,(i+1),250) *)
  modref "numpy" "numpy" ;;
  i ← load_int "i";
  assign "t" (VNum (NLinspace (NInt i) (NInt (i + 1)) 250)) ;;
  (* x = (1 - 0.9*t/n) * numpy.cos(1.5*2*numpy.pi*(t+r0)) *)
  t ← load_num "t";
  n ← load_num "n";
  modref "numpy" "numpy" ;;
  r0 ← load_num "r0";
  assign "x" (VNum ((NInt 1 - NDec 9 (-1) * t / n)
                    * NCos (NDec 15 (-1) * NInt 2 * NPi * (t + r0)))) ;;
  (* y = (1 - 0.9*t/n) * (numpy.sin(3.008*2*numpy.pi*t)
                          + numpy.sin(1.5*numpy.pi*(t+r1))) *)
  t ← load_num "t";
  n ← load_num "n";
  modref "numpy" "numpy" ;;
  r1 ← load_num "r1";
  assign "y" (VNum ((NInt 1 - NDec 9 (-1) * t / n)
                    * (NSin (NDec 3008 (-3) * NInt 2 * NPi * t)
                       + NSin (NDec 15 (-1) * NPi * (t + r1))))) ;;
  (* plt.plot(x, y, color=plt.cm.plasma(float(i)/n), alpha=0.9, lw=0.8) *)
  modref "plt" "matplotlib.pyplot" ;;
  x ← load_num "x";
  y ← load_num "y";
  i ← load_int "i";
  n ← load_int "n";
  c ← truediv (NFloat (NInt i)) n;
  plt_plot x y [("color", NPlasma c); ("alpha", NDec 9 (-1)); ("lw", NDec 8 (-1))].

(** Lines 43-47: [for i in range(n): ...] *)
Definition lines43_47 : Py unit :=
  n ← load_int "n";
  for_ "i" (range n) fig2_body.

(** The top-level statements of the file, in order: lines 6-24 ... *)
Definition prelude : list (Py unit) :=
  [line6; line9; lines12_14; line17; lines18_20; lines22_24].

(** ... and lines 28-48, the plotting section, with the first figure
    (lines 31-37) and the second one (lines 41-48). *)
Definition figure1 : list (Py unit) := [new_figure; line32; lines33_36; show].
Definition figure2 : list (Py unit) := [new_figure; line42; lines43_47; show].
Definition plots : list (Py unit) := [line28; line29] ++ figure1 ++ figure2.

Definition statements : list (Py unit) := prelude ++ plots.

(** The whole file, top to bottom. *)
Definition script : Py unit := exec statements.

(** A run of the interpreter on the file in environment [e]. *)
Definition run (e : environment) : result unit * state := script (initial e).

End Script.

(** ** Observations and expected effects of the blocks *)

(** What a block added to the trace, from the state before and after. *)
Definition emitted (s s' : state) : list event :=
  drop (length (trace s)) (trace s').

(** The lines of a text that are terminated by a newline. *)
Fixpoint complete_lines_from (acc : string) (s : string) : list string :=
  match s with
  | EmptyString => []
  | String c s' =>
      if Ascii.eqb c "010"%char
      then String.rev acc :: complete_lines_from EmptyString s'
      else complete_lines_from (String c acc) s'
  end.
Definition complete_lines (s : string) : list string := complete_lines_from EmptyString s.

(** A block leaves the global [x] as it found it, whether it returns
    or raises. *)
Definition preserves {A} (x : string) (m : Py A) : Prop :=
  forall s, globals (m s).2 !! x = globals s !! x.

(** The events of one iteration of the wait loop, for the value [i]. *)
Definition wait_events (i : Z) : list event :=
  [EWrite (OText "Wait"); EWrite (OText " ");
   EWrite (OText (str_mul "* " i)); EWrite (OText nl); ESleep 1].

Definition time_imported (s : state) : Prop :=
  globals s !! "time" = Some (VModule "time").

Definition after_wait (xs : list Z) (s : state) : state :=
  fold_left (fun s i => add_events (wait_events i) (set_global "i" (VInt i) s)) xs s.

Definition is_sleep (e : event) : bool :=
  match e with ESleep _ => true | _ => false end.

(** The k-th line the wait loop is expected to print (k = 1..5): the
    word Wait, a space, and 6 - k copies of a star and a space. *)
Definition wait_line (k : Z) : string :=
  "Wait" +:+ " " +:+ str_mul "* " (6 - k).

(** The state in which lines 6-24 leave an interpreter started in [s]. *)
Definition after_prelude (s : state) : state :=
  add_events [EWrite (OText "We divide 5 by zero:"); EWrite (OText nl)]
    (after_wait [5; 4; 3; 2; 1]
       (set_global "time" (VModule "time")
          (set_global "multiline" (VStr Script.multiline_literal)
             (add_events [EWrite (OText "hello world!"); EWrite (OText nl)] s)))).

(** Standard output of a run of the whole file. *)
Definition expected_stdout : string :=
  "hello world!" +:+ nl +:+
  "Wait * * * * * " +:+ nl +:+
  "Wait * * * * " +:+ nl +:+
  "Wait * * * " +:+ nl +:+
  "Wait * * " +:+ nl +:+
  "Wait * " +:+ nl +:+
  "We divide 5 by zero:" +:+ nl.

(** Two environments: one with nothing beyond the interpreter, one with
    the two third-party packages of the plotting section installed. *)
Definition bare : environment :=
  {| argv := []; environ := ∅; files := ∅; site_packages := [] |}.
Definition equipped : environment :=
  {| argv := []; environ := ∅; files := ∅;
     site_packages := ["numpy"; "matplotlib"] |}.

(** An editor session in which line 17 has been executed. *)
Definition session_time : state := (Script.line17 (initial bare)).2.

Definition plt_imported (s : state) : Prop :=
  globals s !! "plt" = Some (VModule "matplotlib.pyplot").
Definition numpy_imported (s : state) : Prop :=
  globals s !! "numpy" = Some (VModule "numpy").

(** The first plot loop: the curve of line 34 from draw [d], and the
    two library calls of lines 35-36 for the loop value [i]. *)
Definition fig1_curve (d : nat) : num :=
  (NDec 2 (-1) * NCumsum (NRandn d 500))%num.

Definition fig1_events (x : num) (d : nat) (i : Z) : list event :=
  let y := fig1_curve d in
  [EPlot x (y + NInt (5 * i)) [];
   EFillBetween x
     (y + NInt (5 * i) - NDec 1 (-1) * y - NInt 1)
     (y + NInt (5 * i) + NDec 1 (-1) * y + NInt 1)
     [("alpha", NDec 2 (-1))]].

Definition fig1_step (x : num) (s : state) (i : Z) : state :=
  add_events (fig1_events x (draws s) i)
    (set_global "y" (VNum (fig1_curve (draws s)))
       (next_draw (set_global "i" (VInt i) s))).

Definition after_fig1 (x : num) (xs : list Z) (s : state) : state :=
  fold_left (fig1_step x) xs s.

(** Iteration after iteration, each with the next draw. *)
Fixpoint fig1_trace (x : num) (d : nat) (xs : list Z) : list event :=
  match xs with
  | [] => []
  | i :: xs' => fig1_events x d i ++ fig1_trace x (S d) xs'
  end.

(** The second plot loop: the values of lines 44-46 and the call of
    line 47 for the loop value [i]. *)
Definition fig2_t (i : Z) : num := NLinspace (NInt i) (NInt (i + 1)) 250.

Definition fig2_x (n : Z) (r0 : num) (i : Z) : num :=
  ((NInt 1 - NDec 9 (-1) * fig2_t i / NInt n)
   * NCos (NDec 15 (-1) * NInt 2 * NPi * (fig2_t i + r0)))%num.

Definition fig2_y (n : Z) (r1 : num) (i : Z) : num :=
  ((NInt 1 - NDec 9 (-1) * fig2_t i / NInt n)
   * (NSin (NDec 3008 (-3) * NInt 2 * NPi * fig2_t i)
      + NSin (NDec 15 (-1) * NPi * (fig2_t i + r1))))%num.

Definition fig2_event (n : Z) (r0 r1 : num) (i : Z) : event :=
  EPlot (fig2_x n r0 i) (fig2_y n r1 i)
    [("color", NPlasma (NFloat (NInt i) / NInt n));
     ("alpha", NDec 9 (-1)); ("lw", NDec 8 (-1))].

Definition fig2_step (n : Z) (r0 r1 : num) (s : state) (i : Z) : state :=
  add_events [fig2_event n r0 r1 i]
    (set_global "y" (VNum (fig2_y n r1 i))
       (set_global "x" (VNum (fig2_x n r0 i))
          (set_global "t" (VNum (fig2_t i))
             (set_global "i" (VInt i) s)))).

Definition after_fig2 (n : Z) (r0 r1 : num) (xs : list Z) (s : state) : state :=
  fold_left (fig2_step n r0 r1) xs s.

(** The values [range(n)] runs through. *)
Definition indices (n : Z) : list Z := map Z.of_nat (seq 0 (Z.to_nat n)).

(** The two numbers line 42 unpacks from draw [d]. *)
Definition r0_of (d : nat) : num := NItem (NRand d 2) 0.
Definition r1_of (d : nat) : num := NItem (NRand d 2) 1.

(** An editor session in which lines 28-29 have been executed. *)
Definition session_plots : state :=
  (exec [Script.line28; Script.line29] (initial equipped)).2.

(** The abscissa of line 32. *)
Definition fig1_x : num := NLinspace (NInt 0) (NInt 10) 500.

(** The state after [fig = plt.figure()]. *)
Definition with_figure (s : state) : state :=
  set_global "fig" (VFigure (S (count is_figure (trace s))))
    (add_events [EFigure] s).

(** The states in which lines 31-37 and lines 41-48 leave a session,
    and what they add to its trace when the generator is at draw [d]. *)
Definition after_figure1 (s : state) : state :=
  add_events [EShow]
    (after_fig1 fig1_x [1; 2; 3]
       (set_global "x" (VNum fig1_x) (with_figure s))).

Definition figure1_trace (d : nat) : list event :=
  [EFigure] ++ fig1_trace fig1_x d [1; 2; 3] ++ [EShow].

Definition after_line42 (s : state) : state :=
  set_global "r1" (VNum (r1_of (draws s)))
    (set_global "r0" (VNum (r0_of (draws s)))
       (set_global "n" (VInt 100) (next_draw s))).

Definition after_figure2 (s : state) : state :=
  add_events [EShow]
    (after_fig2 100 (r0_of (draws s)) (r1_of (draws s)) (indices 100)
       (after_line42 (with_figure s))).

Definition figure2_trace (d : nat) : list event :=
  [EFigure] ++ map (fig2_event 100 (r0_of d) (r1_of d)) (indices 100) ++ [EShow].

(** The state after the imports of lines 28-29. *)
Definition with_imports (s : state) : state :=
  set_global "plt" (VModule "matplotlib.pyplot")
    (set_global "numpy" (VModule "numpy") s).

(** The session in which a run of the whole file has stopped, with the
    two packages installed. *)
Definition session_stopped : state := (Script.run equipped).2.

(** What the first iteration of the wait loop prints. *)
Definition first_wait_line : list event :=
  [EWrite (OText "Wait"); EWrite (OText " ");
   EWrite (OText (str_mul "* " 5)); EWrite (OText nl)].


(** An editor session in which only line 29 has been executed. *)
Definition session_plt : state := (Script.line29 (initial equipped)).2.


(** * Reasoning principles *)

Section Monad.
Context {A B : Type}.

Lemma bind_ok (m : Py A) (k : A -> Py B) s a s' :
  m s = (Ok a, s') -> (m ≫= k) s = k a s'.
Proof. intros H. unfold mbind, Py_bind, bind. now rewrite H. Qed.

Lemma bind_raise (m : Py A) (k : A -> Py B) s e s' :
  m s = (Raise e, s') -> (m ≫= k) s = (Raise e, s').
Proof. intros H. unfold mbind, Py_bind, bind. now rewrite H. Qed.

Lemma bind_preserves x (m : Py A) (k : A -> Py B) :
  preserves x m -> (forall a, preserves x (k a)) -> preserves x (m ≫= k).
Proof.
  intros Hm Hk s. unfold mbind, Py_bind, bind.
  specialize (Hm s). destruct (m s) as [[a|e] s1]; simpl in *.
  - now rewrite Hk.
  - exact Hm.
Qed.
End Monad.

Lemma load_ok x v s : globals s !! x = Some v -> load x s = (Ok v, s).
Proof. intros H. unfold load, mbind, Py_bind, bind, get. now rewrite H. Qed.

Lemma load_int_ok x z s : globals s !! x = Some (VInt z) -> load_int x s = (Ok z, s).
Proof. intros H. unfold load_int. now rewrite (bind_ok _ _ _ _ _ (load_ok _ _ _ H)). Qed.

Lemma load_num_ok x a s : globals s !! x = Some (VNum a) -> load_num x s = (Ok a, s).
Proof. intros H. unfold load_num. now rewrite (bind_ok _ _ _ _ _ (load_ok _ _ _ H)). Qed.

Lemma load_num_int x z s :
  globals s !! x = Some (VInt z) -> load_num x s = (Ok (NInt z), s).
Proof. intros H. unfold load_num. now rewrite (bind_ok _ _ _ _ _ (load_ok _ _ _ H)). Qed.

Lemma modref_ok x m s :
  globals s !! x = Some (VModule m) -> modref x m s = (Ok tt, s).
Proof.
  intros H. unfold modref. rewrite (bind_ok _ _ _ _ _ (load_ok _ _ _ H)).
  now rewrite String.eqb_refl.
Qed.

Lemma stdout_app t1 t2 : stdout (t1 ++ t2) = stdout t1 ++ stdout t2.
Proof.
  induction t1 as [|e t1 IH]; simpl; [reflexivity|].
  destruct e; simpl; now rewrite ?IH.
Qed.

Lemma slept_app t1 t2 : slept (t1 ++ t2) = slept t1 + slept t2.
Proof.
  induction t1 as [|e t1 IH]; simpl; [reflexivity|].
  destruct e; simpl; lia.
Qed.

Lemma count_app p t1 t2 : count p (t1 ++ t2) = (count p t1 + count p t2)%nat.
Proof. unfold count. now rewrite List.filter_app, length_app. Qed.

Lemma emitted_app s s' es : trace s' = trace s ++ es -> emitted s s' = es.
Proof. intros H. unfold emitted. rewrite H. apply drop_app_length. Qed.

Lemma add_events_twice a b s :
  add_events b (add_events a s) = add_events (a ++ b) s.
Proof. unfold add_events; cbn. now rewrite app_assoc. Qed.

(** Solves a lookup in the globals of a state built by the setters. *)
Ltac lookup_globals :=
  cbn [globals set_global add_events next_draw];
  repeat first
    [ rewrite lookup_insert_eq
    | rewrite lookup_insert_ne by discriminate ];
  first [ reflexivity | eassumption ].

(** Runs the first action of a sequence when it is one that returns. *)
Ltac py_step :=
  first
    [ erewrite bind_ok; [| first
        [ apply modref_ok; lookup_globals
        | apply load_int_ok; lookup_globals
        | apply load_num_ok; lookup_globals
        | apply load_num_int; lookup_globals
        | reflexivity ] ] ].

(** ** The wait loop *)

Lemma wait_body_ok s i :
  globals s !! "i" = Some (VInt i) -> time_imported s ->
  Script.wait_body s = (Ok tt, add_events (wait_events i) s).
Proof.
  intros Hi Ht. unfold Script.wait_body, time_imported in *.
  do 3 py_step. unfold time_sleep, print, emit, modify.
  now rewrite add_events_twice.
Qed.

Lemma after_wait_trace xs s :
  trace (after_wait xs s) = trace s ++ flat_map wait_events xs.
Proof.
  revert s. induction xs as [|i xs IH]; intros s; simpl.
  - now rewrite app_nil_r.
  - rewrite IH. cbn [trace add_events set_global]. now rewrite <- !app_assoc.
Qed.

Lemma after_wait_frame xs s :
  env (after_wait xs s) = env s /\ draws (after_wait xs s) = draws s.
Proof. revert s. induction xs as [|i xs IH]; intros s; simpl; [tauto|]. now rewrite !(proj1 (IH _)), !(proj2 (IH _)). Qed.

Lemma wait_loop_run xs s :
  time_imported s ->
  for_ "i" (map VInt xs) Script.wait_body s = (Ok tt, after_wait xs s).
Proof.
  revert s. induction xs as [|i xs IH]; intros s Ht; [reflexivity|].
  cbn [map for_ after_wait fold_left].
  py_step. erewrite bind_ok; [| apply (wait_body_ok _ i); [lookup_globals | unfold time_imported in *; lookup_globals ] ].
  apply IH. unfold time_imported in *. lookup_globals.
Qed.

Lemma exec_raise_app (a b : list (Py unit)) s e s' :
  exec a s = (Raise e, s') -> exec (a ++ b) s = (Raise e, s').
Proof.
  revert s. induction a as [|m a IH]; intros s; cbn [exec app].
  - discriminate.
  - unfold mbind, Py_bind, bind. destruct (m s) as [[[]|e1] s1]; auto.
Qed.

Lemma exec_ok_app (a b : list (Py unit)) s s' :
  exec a s = (Ok tt, s') -> exec (a ++ b) s = exec b s'.
Proof.
  revert s. induction a as [|m a IH]; intros s; cbn [exec app].
  - now intros [= ->].
  - unfold mbind, Py_bind, bind. destruct (m s) as [[[]|e1] s1]; auto.
    discriminate.
Qed.

(** * The statements before the plotting section *)

(** C3. Evaluating the single-expression line [1+2] yields the value 3;
    the state of the interpreter is left as it was. *)
Theorem expr9_yields_3 (s : state) : Script.expr9 s = (Ok 3, s).
Proof. reflexivity. Qed.

(** C4. Executing the greeting statement of line 6 returns normally and
    adds to standard output exactly the text hello world! followed by a
    newline; no other event occurs and the globals are untouched. *)
Theorem greeting_writes_hello_world (s : state) :
  exists s', Script.line6 s = (Ok tt, s')
    /\ emitted s s' = [EWrite (OText "hello world!"); EWrite (OText nl)]
    /\ stdout_text (emitted s s') = Some ("hello world!" +:+ nl)
    /\ stdout (trace s') = stdout (trace s) ++ [OText "hello world!"; OText nl]
    /\ globals s' = globals s /\ env s' = env s /\ draws s' = draws s.
Proof.
  eexists. split; [reflexivity|].
  assert (E : emitted s (add_events [EWrite (OText "hello world!"); EWrite (OText nl)] s)
              = [EWrite (OText "hello world!"); EWrite (OText nl)])
    by now apply emitted_app.
  cbn [write_args app]. rewrite E.
  repeat split. cbn [trace add_events]. now rewrite stdout_app.
Qed.

Lemma line24_run s : Script.line24 s = (Raise ZeroDivisionError, s).
Proof. reflexivity. Qed.

Lemma lines22_24_run s :
  Script.lines22_24 s
  = (Raise ZeroDivisionError,
     add_events [EWrite (OText "We divide 5 by zero:"); EWrite (OText nl)] s).
Proof. reflexivity. Qed.

Lemma prelude_run s :
  exec Script.prelude s = (Raise ZeroDivisionError, after_prelude s).
Proof.
  unfold Script.prelude. cbn [exec].
  do 4 py_step.
  erewrite bind_ok;
    [| apply (wait_loop_run [5; 4; 3; 2; 1]); unfold time_imported; lookup_globals].
  erewrite bind_raise; [| apply lines22_24_run].
  reflexivity.
Qed.

Lemma script_run s :
  Script.script s = (Raise ZeroDivisionError, after_prelude s).
Proof. apply exec_raise_app, prelude_run. Qed.

Lemma after_prelude_trace s :
  trace (after_prelude s)
  = trace s ++ [EWrite (OText "hello world!"); EWrite (OText nl)]
      ++ flat_map wait_events [5; 4; 3; 2; 1]
      ++ [EWrite (OText "We divide 5 by zero:"); EWrite (OText nl)].
Proof.
  unfold after_prelude. cbn [trace add_events]. rewrite after_wait_trace.
  cbn [trace add_events set_global]. now rewrite <- !app_assoc.
Qed.

(** C5. Once [time] is imported, the wait loop returns normally after
    exactly five iterations, for i = 5, 4, 3, 2, 1 in this order; each
    iteration prints its message and then sleeps for one second, and the
    next iteration starts only after that sleep.  Five sleeps, five
    seconds in all, and nothing else happens. *)
Theorem wait_loop_five_iterations (s : state) :
  time_imported s ->
  exists s', Script.lines18_20 s = (Ok tt, s')
    /\ emitted s s' = flat_map wait_events [5; 4; 3; 2; 1]
    /\ (forall i, wait_events i
          = write_args true [OText "Wait"; OText (str_mul "* " i)]
              ++ [EWrite (OText nl)] ++ [ESleep 1])
    /\ count is_sleep (emitted s s') = 5%nat
    /\ slept (emitted s s') = 5
    /\ globals s' !! "i" = Some (VInt 1)
    /\ env s' = env s /\ draws s' = draws s.
Proof.
  intros Ht. exists (after_wait [5; 4; 3; 2; 1] s).
  split; [exact (wait_loop_run [5; 4; 3; 2; 1] s Ht)|].
  rewrite (emitted_app _ _ _ (after_wait_trace _ s)).
  repeat split; try apply after_wait_frame.
  cbn [after_wait fold_left]. lookup_globals.
Qed.

(** C10. The wait loop prints exactly five lines; the k-th one is the
    word Wait, a space, and 6 - k copies of a star followed by a space,
    from five stars down to one. *)
Theorem wait_loop_prints_descending_stars (s : state) :
  time_imported s ->
  exists s', Script.lines18_20 s = (Ok tt, s')
    /\ exists txt, stdout_text (emitted s s') = Some txt
    /\ complete_lines txt = map wait_line [1; 2; 3; 4; 5]
    /\ txt = String.concat EmptyString (map (fun k => wait_line k +:+ nl) [1; 2; 3; 4; 5])
    /\ map wait_line [1; 2; 3; 4; 5]
       = ["Wait * * * * * "; "Wait * * * * "; "Wait * * * "; "Wait * * "; "Wait * "].
Proof.
  intros Ht. exists (after_wait [5; 4; 3; 2; 1] s).
  split; [exact (wait_loop_run [5; 4; 3; 2; 1] s Ht)|].
  rewrite (emitted_app _ _ _ (after_wait_trace _ s)).
  eexists. split; [reflexivity|]. now vm_compute.
Qed.

Lemma wait_loop_five_iterations_witness :
  time_imported session_time
  /\ exists s', Script.lines18_20 session_time = (Ok tt, s')
    /\ emitted session_time s' = flat_map wait_events [5; 4; 3; 2; 1]
    /\ (forall i, wait_events i
          = write_args true [OText "Wait"; OText (str_mul "* " i)]
              ++ [EWrite (OText nl)] ++ [ESleep 1])
    /\ count is_sleep (emitted session_time s') = 5%nat
    /\ slept (emitted session_time s') = 5
    /\ globals s' !! "i" = Some (VInt 1)
    /\ env s' = env session_time /\ draws s' = draws session_time.
Proof.
  split; [vm_compute; reflexivity|].
  apply (wait_loop_five_iterations session_time). vm_compute; reflexivity.
Defined.

Lemma wait_loop_prints_descending_stars_witness :
  time_imported session_time
  /\ exists s', Script.lines18_20 session_time = (Ok tt, s')
    /\ exists txt, stdout_text (emitted session_time s') = Some txt
    /\ complete_lines txt = map wait_line [1; 2; 3; 4; 5]
    /\ txt = String.concat EmptyString (map (fun k => wait_line k +:+ nl) [1; 2; 3; 4; 5])
    /\ map wait_line [1; 2; 3; 4; 5]
       = ["Wait * * * * * "; "Wait * * * * "; "Wait * * * "; "Wait * * "; "Wait * "].
Proof.
  split; [vm_compute; reflexivity|].
  apply (wait_loop_prints_descending_stars session_time). vm_compute; reflexivity.
Defined.

(** C2. The division [5 / 0] raises ZeroDivisionError; so does the
    conditional block of lines 22-24 that contains it, from any state;
    nothing catches it, so it is also the outcome of the whole file,
    from any state and in any environment. *)
Theorem division_by_zero_propagates (s : state) :
  truediv (NInt 5) 0 s = (Raise ZeroDivisionError, s)
  /\ (exists s', Script.lines22_24 s = (Raise ZeroDivisionError, s'))
  /\ (exists s', Script.script s = (Raise ZeroDivisionError, s'))
  /\ (forall e, (Script.run e).1 = Raise ZeroDivisionError).
Proof.
  split; [reflexivity|]. split; [eexists; apply lines22_24_run|].
  split; [eexists; apply script_run|].
  intros e. unfold Script.run. now rewrite script_run.
Qed.

(** C9. In line 24 the division is evaluated, and raises, before [print]
    is called: the statement leaves the state, and so standard output,
    exactly as it found it.  The block of lines 22-24 therefore adds only
    the line of its first [print], and in a run of the file the last
    complete line on standard output is that one. *)
Theorem failing_print_writes_nothing (s : state) :
  Script.line24 s = (Raise ZeroDivisionError, s)
  /\ (exists s', Script.lines22_24 s = (Raise ZeroDivisionError, s')
       /\ emitted s s' = [EWrite (OText "We divide 5 by zero:"); EWrite (OText nl)]
       /\ stdout_text (emitted s s') = Some ("We divide 5 by zero:" +:+ nl))
  /\ (forall e, exists txt,
        stdout_text (trace (Script.run e).2) = Some txt
        /\ txt = expected_stdout
        /\ last (complete_lines txt) = Some "We divide 5 by zero:").
Proof.
  split; [reflexivity|]. split.
  - eexists. split; [apply lines22_24_run|].
    erewrite emitted_app by reflexivity. now split.
  - intros e. unfold Script.run. rewrite script_run. cbn [fst snd].
    rewrite after_prelude_trace.
    eexists. split; [reflexivity|]. now vm_compute.
Qed.

(** C8. A run of the file reads nothing of its environment: whatever
    the command-line arguments, environment variables, files and
    installed packages, the run ends in the same exception with the same
    trace, globals and generator state, and standard output is the
    greeting, the five Wait lines and the line announcing the division. *)
Theorem run_independent_of_environment (e1 e2 : environment) :
  (Script.run e1).1 = (Script.run e2).1
  /\ trace (Script.run e1).2 = trace (Script.run e2).2
  /\ globals (Script.run e1).2 = globals (Script.run e2).2
  /\ draws (Script.run e1).2 = draws (Script.run e2).2
  /\ stdout_text (trace (Script.run e1).2) = Some expected_stdout
  /\ (Script.run e1).1 = Raise ZeroDivisionError.
Proof.
  unfold Script.run. rewrite !script_run. cbn [fst snd].
  rewrite !after_prelude_trace. repeat split.
Qed.

(** * The plotting section *)

Lemma import_as_ok pkg m x s :
  importable (env s) pkg = true ->
  import_as pkg m x s = (Ok tt, set_global x (VModule m) s).
Proof. intros H. unfold import_as, mbind, Py_bind, bind, get. now rewrite H. Qed.

Lemma importable_installed e pkg :
  pkg ∈ site_packages e -> importable e pkg = true.
Proof.
  intros H. unfold importable. rewrite (bool_decide_eq_true_2 _ H).
  apply orb_true_r.
Qed.

Lemma fig1_body_ok x i s :
  plt_imported s -> numpy_imported s ->
  globals s !! "x" = Some (VNum x) -> globals s !! "i" = Some (VInt i) ->
  Script.fig1_body s
  = (Ok tt, add_events (fig1_events x (draws s) i)
              (set_global "y" (VNum (fig1_curve (draws s))) (next_draw s))).
Proof.
  unfold plt_imported, numpy_imported. intros Hp Hn Hx Hi.
  unfold Script.fig1_body.
  py_step. unfold random_randn. do 3 py_step. cbn [draws].
  repeat py_step.
  unfold plt_fill_between, plt_plot, emit, modify.
  now rewrite add_events_twice.
Qed.

Lemma after_fig1_frame x xs s :
  env (after_fig1 x xs s) = env s
  /\ draws (after_fig1 x xs s) = (draws s + length xs)%nat
  /\ trace (after_fig1 x xs s) = trace s ++ fig1_trace x (draws s) xs
  /\ forall k, k ≠ "i" -> k ≠ "y" ->
       globals (after_fig1 x xs s) !! k = globals s !! k.
Proof.
  revert s. induction xs as [|i xs IH]; intros s; cbn [after_fig1 fold_left].
  - cbn. rewrite Nat.add_0_r, app_nil_r. auto.
  - destruct (IH (fig1_step x s i)) as (He & Hd & Ht & Hg).
    fold (after_fig1 x xs (fig1_step x s i)).
    rewrite He, Hd, Ht. cbn [fig1_trace length]. repeat split.
    + cbn. lia.
    + cbn [fig1_step trace add_events set_global next_draw draws].
      now rewrite <- app_assoc.
    + intros k Hi Hy. rewrite Hg by assumption.
      cbn [fig1_step globals add_events set_global next_draw].
      now rewrite !lookup_insert_ne by congruence.
Qed.

Lemma fig1_loop_run x xs s :
  plt_imported s -> numpy_imported s -> globals s !! "x" = Some (VNum x) ->
  for_ "i" (map VInt xs) Script.fig1_body s = (Ok tt, after_fig1 x xs s).
Proof.
  unfold plt_imported, numpy_imported.
  revert s. induction xs as [|i xs IH]; intros s Hp Hn Hx; [reflexivity|].
  cbn [map for_ after_fig1 fold_left].
  py_step.
  erewrite bind_ok;
    [| apply (fig1_body_ok x i);
       unfold plt_imported, numpy_imported; lookup_globals ].
  apply IH; unfold fig1_step; lookup_globals.
Qed.

Lemma fig1_trace_counts x d xs :
  count is_plot (fig1_trace x d xs) = length xs
  /\ count is_fill_between (fig1_trace x d xs) = length xs
  /\ count is_show (fig1_trace x d xs) = 0%nat
  /\ count is_figure (fig1_trace x d xs) = 0%nat
  /\ length (fig1_trace x d xs) = (2 * length xs)%nat.
Proof.
  revert d. induction xs as [|i xs IH]; intros d; [now cbn|].
  destruct (IH (S d)) as (H1 & H2 & H3 & H4 & H5).
  cbn [fig1_trace]. rewrite !count_app, length_app, H1, H2, H3, H4, H5.
  cbn. repeat split; lia.
Qed.

Lemma truediv_ok a b s : b ≠ 0 -> truediv a b s = (Ok (a / NInt b)%num, s).
Proof. intros H. unfold truediv. now rewrite (proj2 (Z.eqb_neq b 0) H). Qed.

Lemma fig2_body_ok n r0 r1 i s :
  plt_imported s -> numpy_imported s ->
  globals s !! "n" = Some (VInt n) -> n ≠ 0 ->
  globals s !! "r0" = Some (VNum r0) -> globals s !! "r1" = Some (VNum r1) ->
  globals s !! "i" = Some (VInt i) ->
  Script.fig2_body s
  = (Ok tt, add_events [fig2_event n r0 r1 i]
              (set_global "y" (VNum (fig2_y n r1 i))
                 (set_global "x" (VNum (fig2_x n r0 i))
                    (set_global "t" (VNum (fig2_t i)) s)))).
Proof.
  unfold plt_imported, numpy_imported. intros Hp Hn Hc Hc0 H0 H1 Hi.
  unfold Script.fig2_body.
  repeat py_step.
  erewrite bind_ok; [| now apply truediv_ok].
  reflexivity.
Qed.

Lemma after_fig2_frame n r0 r1 xs s :
  env (after_fig2 n r0 r1 xs s) = env s
  /\ draws (after_fig2 n r0 r1 xs s) = draws s
  /\ trace (after_fig2 n r0 r1 xs s) = trace s ++ map (fig2_event n r0 r1) xs
  /\ forall k, k ≠ "i" -> k ≠ "t" -> k ≠ "x" -> k ≠ "y" ->
       globals (after_fig2 n r0 r1 xs s) !! k = globals s !! k.
Proof.
  revert s. induction xs as [|i xs IH]; intros s; cbn [after_fig2 fold_left].
  - cbn. rewrite app_nil_r. auto.
  - destruct (IH (fig2_step n r0 r1 s i)) as (He & Hd & Ht & Hg).
    fold (after_fig2 n r0 r1 xs (fig2_step n r0 r1 s i)).
    rewrite He, Hd, Ht. repeat split.
    + cbn [fig2_step trace add_events set_global map].
      now rewrite <- app_assoc.
    + intros k Hi Ht' Hx Hy. rewrite Hg by assumption.
      cbn [fig2_step globals add_events set_global].
      now rewrite !lookup_insert_ne by congruence.
Qed.

Lemma fig2_loop_run n r0 r1 xs s :
  plt_imported s -> numpy_imported s ->
  globals s !! "n" = Some (VInt n) -> n ≠ 0 ->
  globals s !! "r0" = Some (VNum r0) -> globals s !! "r1" = Some (VNum r1) ->
  for_ "i" (map VInt xs) Script.fig2_body s = (Ok tt, after_fig2 n r0 r1 xs s).
Proof.
  unfold plt_imported, numpy_imported.
  revert s. induction xs as [|i xs IH]; intros s Hp Hn Hc Hc0 H0 H1;
    [reflexivity|].
  cbn [map for_ after_fig2 fold_left].
  py_step.
  erewrite bind_ok;
    [| apply (fig2_body_ok n r0 r1 i);
       unfold plt_imported, numpy_imported; first [assumption | lookup_globals] ].
  apply IH; unfold fig2_step; first [assumption | lookup_globals].
Qed.

Lemma range_indices n : range n = map VInt (indices n).
Proof. unfold range, indices. now rewrite List.map_map. Qed.

Lemma lines43_47_run n r0 r1 s :
  plt_imported s -> numpy_imported s ->
  globals s !! "n" = Some (VInt n) -> n ≠ 0 ->
  globals s !! "r0" = Some (VNum r0) -> globals s !! "r1" = Some (VNum r1) ->
  Script.lines43_47 s = (Ok tt, after_fig2 n r0 r1 (indices n) s).
Proof.
  intros Hp Hn Hc Hc0 H0 H1. unfold Script.lines43_47.
  py_step. rewrite range_indices. now apply fig2_loop_run.
Qed.

Lemma fig2_trace_counts n r0 r1 xs :
  count is_plot (map (fig2_event n r0 r1) xs) = length xs
  /\ count is_fill_between (map (fig2_event n r0 r1) xs) = 0%nat
  /\ count is_show (map (fig2_event n r0 r1) xs) = 0%nat
  /\ count is_figure (map (fig2_event n r0 r1) xs) = 0%nat.
Proof.
  induction xs as [|i xs (H1 & H2 & H3 & H4)]; [now cbn|].
  change (map (fig2_event n r0 r1) (i :: xs))
    with ([fig2_event n r0 r1 i] ++ map (fig2_event n r0 r1) xs).
  rewrite !count_app, H1, H2, H3, H4. now cbn.
Qed.

Lemma new_figure_run s :
  plt_imported s -> Script.new_figure s = (Ok tt, with_figure s).
Proof.
  unfold plt_imported. intros Hp. unfold Script.new_figure, plt_figure.
  now repeat py_step.
Qed.

Lemma show_run s :
  plt_imported s -> Script.show s = (Ok tt, add_events [EShow] s).
Proof. unfold plt_imported. intros Hp. unfold Script.show. now py_step. Qed.

Lemma line32_run s :
  numpy_imported s -> Script.line32 s = (Ok tt, set_global "x" (VNum fig1_x) s).
Proof. unfold numpy_imported. intros Hn. unfold Script.line32. now py_step. Qed.

Lemma line42_run s :
  numpy_imported s -> Script.line42 s = (Ok tt, after_line42 s).
Proof.
  unfold numpy_imported. intros Hn. unfold Script.line42, random_rand.
  now repeat py_step.
Qed.

Lemma figure1_run s :
  plt_imported s -> numpy_imported s ->
  exec Script.figure1 s = (Ok tt, after_figure1 s).
Proof.
  intros Hp Hn. unfold Script.figure1. cbn [exec].
  unfold plt_imported, numpy_imported in *.
  erewrite bind_ok; [| now apply new_figure_run].
  erewrite bind_ok; [| apply line32_run; unfold numpy_imported, with_figure; lookup_globals].
  erewrite bind_ok;
    [| apply (fig1_loop_run fig1_x [1; 2; 3]);
       unfold plt_imported, numpy_imported, with_figure; lookup_globals].
  erewrite bind_ok; [reflexivity|].
  apply show_run. unfold plt_imported.
  rewrite (proj2 (proj2 (proj2 (after_fig1_frame _ _ _)))) by discriminate.
  unfold with_figure; lookup_globals.
Qed.

Lemma after_figure1_frame s :
  env (after_figure1 s) = env s
  /\ draws (after_figure1 s) = (draws s + 3)%nat
  /\ trace (after_figure1 s) = trace s ++ figure1_trace (draws s)
  /\ forall k, k ≠ "i" -> k ≠ "y" -> k ≠ "x" -> k ≠ "fig" ->
       globals (after_figure1 s) !! k = globals s !! k.
Proof.
  unfold after_figure1, figure1_trace.
  generalize (after_fig1_frame fig1_x [1; 2; 3]
                (set_global "x" (VNum fig1_x) (with_figure s))).
  generalize (after_fig1 fig1_x [1; 2; 3]
                (set_global "x" (VNum fig1_x) (with_figure s))).
  intros s1 (He & Hd & Ht & Hg).
  split; [exact He|]. split; [exact Hd|]. split.
  - change ([EFigure] ++ fig1_trace fig1_x (draws s) [1; 2; 3] ++ [EShow])
      with (EFigure :: (fig1_trace fig1_x (draws s) [1; 2; 3] ++ [EShow])).
    cbn [trace add_events]. rewrite Ht.
    cbn [trace set_global with_figure add_events draws].
    rewrite <- !app_assoc. reflexivity.
  - intros k Hi Hy Hx Hf. cbn [globals add_events]. rewrite Hg by assumption.
    cbn [globals set_global with_figure add_events].
    rewrite !lookup_insert_ne by congruence. reflexivity.
Qed.

Lemma figure2_run s :
  plt_imported s -> numpy_imported s ->
  exec Script.figure2 s = (Ok tt, after_figure2 s).
Proof.
  intros Hp Hn. unfold Script.figure2. cbn [exec].
  unfold plt_imported, numpy_imported in *.
  erewrite bind_ok; [| now apply new_figure_run].
  erewrite bind_ok; [| apply line42_run; unfold numpy_imported, with_figure; lookup_globals].
  erewrite bind_ok;
    [| apply (lines43_47_run 100 (r0_of (draws s)) (r1_of (draws s)));
       unfold plt_imported, numpy_imported, after_line42, with_figure;
       first [lia | lookup_globals] ].
  erewrite bind_ok; [reflexivity|].
  apply show_run. unfold plt_imported.
  rewrite (proj2 (proj2 (proj2 (after_fig2_frame _ _ _ _ _)))) by discriminate.
  unfold after_line42, with_figure; lookup_globals.
Qed.

Lemma after_figure2_frame s :
  env (after_figure2 s) = env s
  /\ draws (after_figure2 s) = S (draws s)
  /\ trace (after_figure2 s) = trace s ++ figure2_trace (draws s)
  /\ forall k, k ≠ "i" -> k ≠ "t" -> k ≠ "x" -> k ≠ "y" -> k ≠ "fig" ->
       k ≠ "n" -> k ≠ "r0" -> k ≠ "r1" ->
       globals (after_figure2 s) !! k = globals s !! k.
Proof.
  unfold after_figure2, figure2_trace.
  generalize (indices 100). intros xs.
  generalize (after_fig2_frame 100 (r0_of (draws s)) (r1_of (draws s)) xs
                (after_line42 (with_figure s))).
  generalize (after_fig2 100 (r0_of (draws s)) (r1_of (draws s)) xs
                (after_line42 (with_figure s))).
  intros s1 (He & Hd & Ht & Hg).
  split; [exact He|]. split; [exact Hd|]. split.
  - cbn [trace add_events]. rewrite Ht.
    cbn [trace set_global after_line42 next_draw with_figure add_events].
    rewrite <- !app_assoc. reflexivity.
  - intros k Hi Ht' Hx Hy Hf Hc H0 H1. cbn [globals add_events].
    rewrite Hg by assumption.
    cbn [globals set_global after_line42 next_draw with_figure add_events].
    rewrite !lookup_insert_ne by congruence. reflexivity.
Qed.

Lemma plots_run s :
  "numpy" ∈ site_packages (env s) -> "matplotlib" ∈ site_packages (env s) ->
  exec Script.plots s = (Ok tt, after_figure2 (after_figure1 (with_imports s))).
Proof.
  intros Hn Hm. unfold Script.plots. cbn [exec app].
  erewrite bind_ok; [| now apply import_as_ok, importable_installed].
  erewrite bind_ok; [| now apply import_as_ok, importable_installed].
  fold (with_imports s). fold (exec Script.figure1).
  assert (Hp1 : plt_imported (with_imports s)) by (unfold plt_imported, with_imports; lookup_globals).
  assert (Hn1 : numpy_imported (with_imports s)) by (unfold numpy_imported, with_imports; lookup_globals).
  change (exec (Script.figure1 ++ Script.figure2) (with_imports s) = (Ok (), after_figure2 (after_figure1 (with_imports s)))).
  rewrite (exec_ok_app _ _ _ _ (figure1_run _ Hp1 Hn1)).
  apply figure2_run.
  - unfold plt_imported.
    now rewrite (proj2 (proj2 (proj2 (after_figure1_frame _)))) by discriminate.
  - unfold numpy_imported.
    now rewrite (proj2 (proj2 (proj2 (after_figure1_frame _)))) by discriminate.
Qed.

(** C6. In a session where the two libraries are imported, each figure
    is built by a loop of fixed length.  The loop of lines 33-36, run in
    the state lines 31-32 lead to, returns after exactly three iterations
    (i = 1, 2, 3), each issuing one [plot] call followed by one
    [fill_between] call; the loop of lines 43-47, run in the state lines
    41-42 lead to, returns after exactly one hundred iterations
    (i = 0 .. 99), each issuing one [plot] call and nothing else. *)
Theorem plot_loops_iterate_3_and_100_times (s : state) :
  plt_imported s -> numpy_imported s ->
  let d := draws s in
  let s1 := set_global "x" (VNum fig1_x) (with_figure s) in
  let s2 := after_line42 (with_figure s) in
  exec [Script.new_figure; Script.line32] s = (Ok tt, s1)
  /\ (exists s1', Script.lines33_36 s1 = (Ok tt, s1')
       /\ emitted s1 s1'
          = fig1_events fig1_x d 1 ++ fig1_events fig1_x (S d) 2
              ++ fig1_events fig1_x (S (S d)) 3
       /\ (forall x k i, map is_plot (fig1_events x k i) = [true; false]
             /\ map is_fill_between (fig1_events x k i) = [false; true])
       /\ count is_plot (emitted s1 s1') = 3%nat
       /\ count is_fill_between (emitted s1 s1') = 3%nat)
  /\ exec [Script.new_figure; Script.line42] s = (Ok tt, s2)
  /\ (exists s2', Script.lines43_47 s2 = (Ok tt, s2')
       /\ emitted s2 s2' = map (fig2_event 100 (r0_of d) (r1_of d)) (indices 100)
       /\ indices 100 = map Z.of_nat (seq 0 100)
       /\ length (emitted s2 s2') = 100%nat
       /\ count is_plot (emitted s2 s2') = 100%nat).
Proof.
  intros Hp Hn d s1 s2.
  assert (Hn' : numpy_imported (with_figure s))
    by (unfold numpy_imported, with_figure in *; lookup_globals).
  assert (Hp' : plt_imported (with_figure s))
    by (unfold plt_imported, with_figure in *; lookup_globals).
  split; [|split; [|split]].
  - cbn [exec]. erewrite bind_ok; [| now apply new_figure_run].
    erewrite bind_ok; [reflexivity | now apply line32_run].
  - exists (after_fig1 fig1_x [1; 2; 3] s1). split.
    + apply (fig1_loop_run fig1_x [1; 2; 3]); subst s1;
        unfold plt_imported, numpy_imported, with_figure in *; lookup_globals.
    + rewrite (emitted_app _ _ _ (proj1 (proj2 (proj2 (after_fig1_frame _ _ _))))).
      cbn [fig1_trace]. rewrite app_nil_r.
      split; [reflexivity|]. split; [now intros|].
      destruct (fig1_trace_counts fig1_x d [1; 2; 3]) as (H1 & H2 & _).
      cbn [fig1_trace] in H1, H2. rewrite app_nil_r in H1, H2. now split.
  - cbn [exec]. erewrite bind_ok; [| now apply new_figure_run].
    erewrite bind_ok; [reflexivity | now apply line42_run].
  - exists (after_fig2 100 (r0_of d) (r1_of d) (indices 100) s2). split.
    + apply lines43_47_run; subst s2; try lia;
        unfold plt_imported, numpy_imported, after_line42, with_figure in *;
        lookup_globals.
    + rewrite (emitted_app _ _ _
                 (proj1 (proj2 (proj2 (after_fig2_frame _ _ _ _ _))))).
      split; [reflexivity|]. split; [reflexivity|].
      rewrite length_map, (proj1 (fig2_trace_counts _ _ _ _)).
      now split.
Qed.

Lemma plot_loops_iterate_3_and_100_times_witness :
  plt_imported session_plots /\ numpy_imported session_plots
  /\ (let d := draws session_plots in
      let s1 := set_global "x" (VNum fig1_x) (with_figure session_plots) in
      let s2 := after_line42 (with_figure session_plots) in
      exec [Script.new_figure; Script.line32] session_plots = (Ok tt, s1)
      /\ (exists s1', Script.lines33_36 s1 = (Ok tt, s1')
           /\ emitted s1 s1'
              = fig1_events fig1_x d 1 ++ fig1_events fig1_x (S d) 2
                  ++ fig1_events fig1_x (S (S d)) 3
           /\ (forall x k i, map is_plot (fig1_events x k i) = [true; false]
                 /\ map is_fill_between (fig1_events x k i) = [false; true])
           /\ count is_plot (emitted s1 s1') = 3%nat
           /\ count is_fill_between (emitted s1 s1') = 3%nat)
      /\ exec [Script.new_figure; Script.line42] session_plots = (Ok tt, s2)
      /\ (exists s2', Script.lines43_47 s2 = (Ok tt, s2')
           /\ emitted s2 s2' = map (fig2_event 100 (r0_of d) (r1_of d)) (indices 100)
           /\ indices 100 = map Z.of_nat (seq 0 100)
           /\ length (emitted s2 s2') = 100%nat
           /\ count is_plot (emitted s2 s2') = 100%nat)).
Proof.
  split; [vm_compute; reflexivity|]. split; [vm_compute; reflexivity|].
  apply (plot_loops_iterate_3_and_100_times session_plots);
    vm_compute; reflexivity.
Defined.

Lemma figure_traces_counts d d' :
  count is_figure (figure1_trace d ++ figure2_trace d') = 2%nat
  /\ count is_show (figure1_trace d ++ figure2_trace d') = 2%nat
  /\ count is_plot (figure1_trace d ++ figure2_trace d') = 103%nat
  /\ count is_fill_between (figure1_trace d ++ figure2_trace d') = 3%nat.
Proof.
  unfold figure1_trace, figure2_trace. rewrite !count_app.
  destruct (fig1_trace_counts fig1_x d [1; 2; 3]) as (A1 & A2 & A3 & A4 & _).
  destruct (fig2_trace_counts 100 (r0_of d') (r1_of d') (indices 100))
    as (B1 & B2 & B3 & B4).
  rewrite A1, A2, A3, A4, B1, B2, B3, B4. now cbn.
Qed.

(** C1, as stated, fails: with both packages installed, a run of the
    file from top to bottom ends in the exception of line 24 and has
    executed no [plt.show()], let alone two. *)
Lemma run_reaches_no_show :
  (Script.run equipped).1 = Raise ZeroDivisionError
  /\ count is_show (trace (Script.run equipped).2) = 0%nat
  /\ count is_show (trace (Script.run equipped).2) ≠ 2%nat.
Proof. now vm_compute. Qed.

(** C1, amended.  Executed from top to bottom as one program, the file
    stops at the division by zero of line 24 and reaches neither
    [plt.show()], in any environment.  The plotting section, lines 28-48,
    executed on its own in a session whose environment has numpy and
    matplotlib installed, returns normally, creates two figures and
    executes both [plt.show()] calls, the second one last. *)
Theorem plotting_section_reaches_both_shows (s : state) :
  "numpy" ∈ site_packages (env s) -> "matplotlib" ∈ site_packages (env s) ->
  (forall e, (Script.run e).1 = Raise ZeroDivisionError
             /\ count is_show (trace (Script.run e).2) = 0%nat
             /\ count is_figure (trace (Script.run e).2) = 0%nat)
  /\ exists s', exec Script.plots s = (Ok tt, s')
       /\ emitted s s' = figure1_trace (draws s) ++ figure2_trace (draws s + 3)
       /\ count is_figure (emitted s s') = 2%nat
       /\ count is_show (emitted s s') = 2%nat
       /\ last (emitted s s') = Some EShow.
Proof.
  intros Hn Hm. split.
  - intros e. unfold Script.run. rewrite script_run. cbn [fst snd].
    rewrite after_prelude_trace. now cbn.
  - eexists. split; [now apply plots_run|].
    assert (Ht : trace (after_figure2 (after_figure1 (with_imports s)))
                 = trace s ++ figure1_trace (draws s) ++ figure2_trace (draws s + 3)).
    { destruct (after_figure2_frame (after_figure1 (with_imports s)))
        as (_ & _ & Ht & _).
      destruct (after_figure1_frame (with_imports s)) as (_ & Hd & Ht1 & _).
      rewrite Ht, Ht1, Hd. cbn [with_imports set_global trace draws].
      now rewrite <- app_assoc. }
    rewrite (emitted_app _ _ _ Ht).
    destruct (figure_traces_counts (draws s) (draws s + 3)) as (C1 & C2 & _).
    split; [reflexivity|]. split; [assumption|]. split; [assumption|].
    unfold figure2_trace. rewrite !app_assoc. apply last_snoc.
Qed.

Lemma plotting_section_reaches_both_shows_witness :
  "numpy" ∈ site_packages (env session_stopped)
  /\ "matplotlib" ∈ site_packages (env session_stopped)
  /\ (forall e, (Script.run e).1 = Raise ZeroDivisionError
                /\ count is_show (trace (Script.run e).2) = 0%nat
                /\ count is_figure (trace (Script.run e).2) = 0%nat)
  /\ exists s', exec Script.plots session_stopped = (Ok tt, s')
       /\ emitted session_stopped s'
          = figure1_trace (draws session_stopped)
              ++ figure2_trace (draws session_stopped + 3)
       /\ count is_figure (emitted session_stopped s') = 2%nat
       /\ count is_show (emitted session_stopped s') = 2%nat
       /\ last (emitted session_stopped s') = Some EShow.
Proof.
  assert (Hn : "numpy" ∈ site_packages (env session_stopped))
    by (vm_compute; apply list_elem_of_here).
  assert (Hm : "matplotlib" ∈ site_packages (env session_stopped))
    by (vm_compute; apply list_elem_of_further, list_elem_of_here).
  split; [exact Hn|]. split; [exact Hm|].
  exact (plotting_section_reaches_both_shows session_stopped Hn Hm).
Defined.

(** * Which globals a block leaves alone *)

Section Preserves.
Variable x : string.

Lemma preserves_ret {A} (a : A) : preserves x (mret a).
Proof. now intros s. Qed.

Lemma preserves_raise {A} e : preserves x (raise (A := A) e).
Proof. now intros s. Qed.

Lemma preserves_get : preserves x get.
Proof. now intros s. Qed.

Lemma preserves_emit es : preserves x (emit es).
Proof. now intros s. Qed.

Lemma preserves_next_draw : preserves x (modify next_draw).
Proof. now intros s. Qed.

Lemma preserves_assign y v : x ≠ y -> preserves x (assign y v).
Proof.
  intros H s. cbn [assign modify snd globals set_global].
  apply lookup_insert_ne. congruence.
Qed.

Lemma preserves_load y : preserves x (load y).
Proof.
  apply bind_preserves; [apply preserves_get|].
  intros s. destruct (globals s !! y); [apply preserves_ret | apply preserves_raise].
Qed.

Lemma preserves_load_int y : preserves x (load_int y).
Proof.
  apply bind_preserves; [apply preserves_load|].
  intros []; first [apply preserves_ret | apply preserves_raise].
Qed.

Lemma preserves_load_num y : preserves x (load_num y).
Proof.
  apply bind_preserves; [apply preserves_load|].
  intros []; first [apply preserves_ret | apply preserves_raise].
Qed.

Lemma preserves_modref y m : preserves x (modref y m).
Proof.
  apply bind_preserves; [apply preserves_load|].
  intros []; try apply preserves_raise.
  destruct (String.eqb name m); [apply preserves_ret | apply preserves_raise].
Qed.

Lemma preserves_import_as pkg m y : x ≠ y -> preserves x (import_as pkg m y).
Proof.
  intros H. apply bind_preserves; [apply preserves_get|].
  intros s. destruct (importable (env s) pkg);
    [now apply preserves_assign | apply preserves_raise].
Qed.

Lemma preserves_truediv a b : preserves x (truediv a b).
Proof.
  unfold truediv. destruct (b =? 0)%Z; [apply preserves_raise | apply preserves_ret].
Qed.

Lemma preserves_for y vs body :
  x ≠ y -> preserves x body -> preserves x (for_ y vs body).
Proof.
  intros Hy Hb. induction vs as [|v vs IH]; cbn [for_].
  - apply preserves_ret.
  - apply bind_preserves; [now apply preserves_assign|]. intros _.
    apply bind_preserves; [exact Hb|]. intros _. exact IH.
Qed.

Lemma preserves_exec ss : Forall (preserves x) ss -> preserves x (exec ss).
Proof.
  induction 1 as [|m ss Hm _ IH]; cbn [exec].
  - apply preserves_ret.
  - apply bind_preserves; [exact Hm|]. intros _. exact IH.
Qed.
End Preserves.

(** Decomposes a block into its actions; what is left are the
    assignments to the name itself, if any. *)
Ltac preserves_tac :=
  repeat first
    [ apply preserves_load_int | apply preserves_load_num
    | apply preserves_modref | apply preserves_load
    | apply preserves_truediv
    | apply preserves_import_as; discriminate
    | apply preserves_assign; discriminate
    | apply preserves_for; [discriminate|]
    | apply preserves_emit | apply preserves_next_draw
    | apply preserves_get | apply preserves_ret | apply preserves_raise
    | apply bind_preserves; [| intros ? ] ].

(** C7. The assignment of lines 12-14 binds [multiline] to the text of
    three lines given in the source, from any state; it is the third
    top-level statement of the file, and every statement after it leaves
    [multiline] as it found it, from any state and whether it returns or
    raises.  So does a run of the whole file, which ends with [multiline]
    still bound to that text. *)
Theorem multiline_holds_literal :
  Script.multiline_literal
  = String.concat nl ["Multi-line commands without";
                      "indent can be executed with the cursor";
                      "anywhere in the block"]
  /\ (forall s, exists s', Script.lines12_14 s = (Ok tt, s')
        /\ globals s' !! "multiline" = Some (VStr Script.multiline_literal))
  /\ Script.statements !! 2%nat = Some Script.lines12_14
  /\ Forall (preserves "multiline") (drop 3 Script.statements)
  /\ preserves "multiline" (exec (drop 3 Script.statements))
  /\ (forall e, globals (Script.run e).2 !! "multiline"
                = Some (VStr Script.multiline_literal)).
Proof.
  assert (H : Forall (preserves "multiline") (drop 3 Script.statements)).
  { cbn [drop Script.statements Script.prelude Script.plots Script.figure1
           Script.figure2 app].
    repeat apply List.Forall_cons; try apply List.Forall_nil.
    - unfold Script.line17. preserves_tac.
    - unfold Script.lines18_20, Script.wait_body, print, time_sleep. preserves_tac.
    - unfold Script.lines22_24, if_, Script.line24, print. preserves_tac.
    - unfold Script.line28. preserves_tac.
    - unfold Script.line29. preserves_tac.
    - unfold Script.new_figure, plt_figure. preserves_tac.
    - unfold Script.line32. preserves_tac.
    - unfold Script.lines33_36, Script.fig1_body, random_randn, plt_plot,
        plt_fill_between. preserves_tac.
    - unfold Script.show, plt_show. preserves_tac.
    - unfold Script.new_figure, plt_figure. preserves_tac.
    - unfold Script.line42, random_rand. preserves_tac.
    - unfold Script.lines43_47, Script.fig2_body, plt_plot. preserves_tac.
    - unfold Script.show, plt_show. preserves_tac. }
  split; [reflexivity|]. split.
  { intros s. eexists. split; [reflexivity|].
    cbn [globals set_global]. apply lookup_insert_eq. }
  split; [reflexivity|]. split; [exact H|].
  split; [now apply preserves_exec|].
  intros e. unfold Script.run. rewrite script_run. cbn [snd].
  unfold after_prelude. cbn [after_wait fold_left]. lookup_globals.
Qed.

(** * Further properties of the blocks *)

Lemma load_none x s :
  globals s !! x = None -> load x s = (Raise (NameError x), s).
Proof. intros H. unfold load, mbind, Py_bind, bind, get. now rewrite H. Qed.

Lemma modref_none x m s :
  globals s !! x = None -> modref x m s = (Raise (NameError x), s).
Proof.
  intros H. unfold modref. now rewrite (bind_raise _ _ _ _ _ (load_none _ _ H)).
Qed.




(** X1. Executed in a session where [time] has not been imported, the
    wait loop prints its first line, then stops with a NameError for
    [time] at the first [time.sleep]: one line on standard output, no
    sleep, and [i] left at 5. *)
Theorem wait_loop_without_import (s : state) :
  globals s !! "time" = None ->
  exists s', Script.lines18_20 s = (Raise (NameError "time"), s')
    /\ emitted s s' = first_wait_line
    /\ stdout_text (emitted s s') = Some ("Wait * * * * * " +:+ nl)
    /\ slept (emitted s s') = 0
    /\ globals s' !! "i" = Some (VInt 5).
Proof.
  intros Ht.
  exists (add_events first_wait_line (set_global "i" (VInt 5) s)).
  split.
  - unfold Script.lines18_20. cbn [for_]. py_step.
    erewrite bind_raise; [reflexivity|].
    unfold Script.wait_body. do 2 py_step.
    erewrite bind_raise; [reflexivity|].
    apply modref_none. lookup_globals.
  - erewrite emitted_app by reflexivity.
    repeat split. lookup_globals.
Qed.

Lemma wait_loop_without_import_witness :
  globals (initial bare) !! "time" = None
  /\ exists s', Script.lines18_20 (initial bare) = (Raise (NameError "time"), s')
    /\ emitted (initial bare) s' = first_wait_line
    /\ stdout_text (emitted (initial bare) s') = Some ("Wait * * * * * " +:+ nl)
    /\ slept (emitted (initial bare) s') = 0
    /\ globals s' !! "i" = Some (VInt 5).
Proof.
  split; [vm_compute; reflexivity|].
  apply (wait_loop_without_import (initial bare)). vm_compute; reflexivity.
Defined.





(** X4. A figure block executed in a session where [plt] is imported
    but [numpy] is not creates its figure and then stops with a
    NameError for [numpy], at line 32 or at line 42: the figure stays
    empty and [plt.show()] is not reached. *)
Theorem figure_blocks_without_numpy (s : state) :
  plt_imported s -> globals s !! "numpy" = None ->
  exec Script.figure1 s = (Raise (NameError "numpy"), with_figure s)
  /\ exec Script.figure2 s = (Raise (NameError "numpy"), with_figure s)
  /\ emitted s (with_figure s) = [EFigure].
Proof.
  intros Hp Hn.
  assert (Hn' : globals (with_figure s) !! "numpy" = None)
    by (unfold with_figure; lookup_globals).
  split; [|split].
  - unfold Script.figure1. cbn [exec].
    erewrite bind_ok; [| now apply new_figure_run].
    apply bind_raise. unfold Script.line32. now apply bind_raise, modref_none.
  - unfold Script.figure2. cbn [exec].
    erewrite bind_ok; [| now apply new_figure_run].
    apply bind_raise. unfold Script.line42. now apply bind_raise, modref_none.
  - now apply emitted_app.
Qed.

Lemma figure_blocks_without_numpy_witness :
  plt_imported session_plt /\ globals session_plt !! "numpy" = None
  /\ exec Script.figure1 session_plt
     = (Raise (NameError "numpy"), with_figure session_plt)
  /\ exec Script.figure2 session_plt
     = (Raise (NameError "numpy"), with_figure session_plt)
  /\ emitted session_plt (with_figure session_plt) = [EFigure].
Proof.
  split; [vm_compute; reflexivity|]. split; [vm_compute; reflexivity|].
  apply (figure_blocks_without_numpy session_plt); vm_compute; reflexivity.
Defined.






Lemma fig1_trace_quiet x d xs :
  stdout (fig1_trace x d xs) = [] /\ slept (fig1_trace x d xs) = 0.
Proof.
  revert d. induction xs as [|i xs IH]; intros d; [now cbn|].
  cbn [fig1_trace]. rewrite stdout_app, slept_app.
  destruct (IH (S d)) as [-> ->]. now cbn.
Qed.

Lemma fig2_trace_quiet n r0 r1 xs :
  stdout (map (fig2_event n r0 r1) xs) = []
  /\ slept (map (fig2_event n r0 r1) xs) = 0.
Proof. induction xs as [|i xs [H1 H2]]; now cbn. Qed.

Lemma figure_traces_quiet d d' :
  stdout (figure1_trace d ++ figure2_trace d') = []
  /\ slept (figure1_trace d ++ figure2_trace d') = 0.
Proof.
  unfold figure1_trace, figure2_trace.
  rewrite !stdout_app, !slept_app.
  destruct (fig1_trace_quiet fig1_x d [1; 2; 3]) as [-> ->].
  destruct (fig2_trace_quiet 100 (r0_of d') (r1_of d') (indices 100)) as [-> ->].
  now cbn.
Qed.

Lemma plots_trace s :
  trace (after_figure2 (after_figure1 (with_imports s)))
  = trace s ++ figure1_trace (draws s) ++ figure2_trace (draws s + 3).
Proof.
  destruct (after_figure2_frame (after_figure1 (with_imports s)))
    as (_ & _ & Ht & _).
  destruct (after_figure1_frame (with_imports s)) as (_ & Hd & Ht1 & _).
  rewrite Ht, Ht1, Hd. cbn [with_imports set_global trace draws].
  now rewrite <- app_assoc.
Qed.

(** X8. With numpy and matplotlib installed, the plotting section
    returns normally having consumed exactly four random draws (three
    for the curves of the first figure, one for the second), issued 103
    [plot] calls and 3 [fill_between] calls, written nothing to standard
    output and slept not at all; the environment is untouched. *)
Theorem plotting_section_effects (s : state) :
  "numpy" ∈ site_packages (env s) -> "matplotlib" ∈ site_packages (env s) ->
  exists s', exec Script.plots s = (Ok tt, s')
    /\ draws s' = (draws s + 4)%nat
    /\ count is_plot (emitted s s') = 103%nat
    /\ count is_fill_between (emitted s s') = 3%nat
    /\ stdout (emitted s s') = []
    /\ slept (emitted s s') = 0
    /\ env s' = env s.
Proof.
  intros Hn Hm. eexists. split; [now apply plots_run|].
  rewrite (emitted_app _ _ _ (plots_trace s)).
  destruct (figure_traces_counts (draws s) (draws s + 3)) as (_ & _ & C3 & C4).
  destruct (figure_traces_quiet (draws s) (draws s + 3)) as (Q1 & Q2).
  destruct (after_figure2_frame (after_figure1 (with_imports s)))
    as (He & Hd & _ & _).
  destruct (after_figure1_frame (with_imports s)) as (He1 & Hd1 & _ & _).
  rewrite He, Hd, He1, Hd1. cbn [with_imports set_global draws env].
  repeat split; try assumption. lia.
Qed.

Lemma plotting_section_effects_witness :
  "numpy" ∈ site_packages (env (initial equipped))
  /\ "matplotlib" ∈ site_packages (env (initial equipped))
  /\ exists s', exec Script.plots (initial equipped) = (Ok tt, s')
    /\ draws s' = (draws (initial equipped) + 4)%nat
    /\ count is_plot (emitted (initial equipped) s') = 103%nat
    /\ count is_fill_between (emitted (initial equipped) s') = 3%nat
    /\ stdout (emitted (initial equipped) s') = []
    /\ slept (emitted (initial equipped) s') = 0
    /\ env s' = env (initial equipped).
Proof.
  assert (Hn : "numpy" ∈ site_packages (env (initial equipped)))
    by (vm_compute; apply list_elem_of_here).
  assert (Hm : "matplotlib" ∈ site_packages (env (initial equipped)))
    by (vm_compute; apply list_elem_of_further, list_elem_of_here).
  split; [exact Hn|]. split; [exact Hm|].
  exact (plotting_section_effects (initial equipped) Hn Hm).
Defined.

Lemma after_wait_globals xs s k :
  k ≠ "i" -> globals (after_wait xs s) !! k = globals s !! k.
Proof.
  intros Hk. revert s. induction xs as [|i xs IH]; intros s; [reflexivity|].
  cbn [after_wait fold_left]. fold (after_wait xs). rewrite IH.
  cbn [globals add_events set_global]. apply lookup_insert_ne. congruence.
Qed.

(** X9. A top-to-bottom run of the file binds three global names and
    no other: every name except [multiline], [time] and [i] is left as
    the session had it, the names of the plotting section included. *)
Theorem script_binds_three_names (k : string) :
  k ≠ "multiline" -> k ≠ "time" -> k ≠ "i" -> preserves k Script.script.
Proof.
  intros Hm Ht Hi s. rewrite script_run. cbn [snd].
  unfold after_prelude. cbn [globals add_events].
  rewrite after_wait_globals by assumption.
  cbn [globals add_events set_global].
  rewrite !lookup_insert_ne by congruence. reflexivity.
Qed.

Lemma script_binds_three_names_witness :
  "numpy" ≠ "multiline" /\ "numpy" ≠ "time" /\ "numpy" ≠ "i"
  /\ preserves "numpy" Script.script.
Proof.
  split; [discriminate|]. split; [discriminate|]. split; [discriminate|].
  apply (script_binds_three_names "numpy"); discriminate.
Defined.

(** Like [preserves_tac], for a name known only by what it differs
    from. *)
Ltac preserves_frame :=
  repeat first
    [ apply preserves_load_int | apply preserves_load_num
    | apply preserves_modref | apply preserves_load
    | apply preserves_truediv
    | apply preserves_import_as; congruence
    | apply preserves_assign; congruence
    | apply preserves_for; [congruence|]
    | apply preserves_emit | apply preserves_next_draw
    | apply preserves_get | apply preserves_ret | apply preserves_raise
    | apply bind_preserves; [| intros ? ] ].

(** X10. The plotting section assigns to ten global names ([numpy],
    [plt], [fig], [x], [y], [i], [n], [r0], [r1], [t]) and to no other:
    every other name is left as the session had it, whether the section
    returns or stops on an exception. *)
Theorem plotting_section_binds_ten_names (k : string) :
  k ≠ "numpy" -> k ≠ "plt" -> k ≠ "fig" -> k ≠ "x" -> k ≠ "y" ->
  k ≠ "i" -> k ≠ "n" -> k ≠ "r0" -> k ≠ "r1" -> k ≠ "t" ->
  preserves k (exec Script.plots).
Proof.
  intros Hnp Hplt Hfig Hx Hy Hi Hn H0 H1 Ht.
  apply preserves_exec.
  unfold Script.plots, Script.figure1, Script.figure2. cbn [app].
  repeat apply List.Forall_cons; try apply List.Forall_nil.
  - unfold Script.line28. preserves_frame.
  - unfold Script.line29. preserves_frame.
  - unfold Script.new_figure, plt_figure. preserves_frame.
  - unfold Script.line32. preserves_frame.
  - unfold Script.lines33_36, Script.fig1_body, random_randn, plt_plot,
      plt_fill_between. preserves_frame.
  - unfold Script.show, plt_show. preserves_frame.
  - unfold Script.new_figure, plt_figure. preserves_frame.
  - unfold Script.line42, random_rand. preserves_frame.
  - unfold Script.lines43_47, Script.fig2_body, plt_plot. preserves_frame.
  - unfold Script.show, plt_show. preserves_frame.
Qed.

Lemma plotting_section_binds_ten_names_witness :
  "multiline" ≠ "numpy" /\ "multiline" ≠ "plt" /\ "multiline" ≠ "fig"
  /\ "multiline" ≠ "x" /\ "multiline" ≠ "y" /\ "multiline" ≠ "i"
  /\ "multiline" ≠ "n" /\ "multiline" ≠ "r0" /\ "multiline" ≠ "r1"
  /\ "multiline" ≠ "t"
  /\ preserves "multiline" (exec Script.plots).
Proof.
  repeat (split; [discriminate|]).
  apply (plotting_section_binds_ten_names "multiline"); discriminate.
Defined.

Lemma after_fig2_last n r0 r1 xs i s :
  after_fig2 n r0 r1 (xs ++ [i]) s
  = fig2_step n r0 r1 (after_fig2 n r0 r1 xs s) i.
Proof. unfold after_fig2. now rewrite fold_left_app. Qed.

Lemma indices_100_last : indices 100 = indices 99 ++ [99].
Proof. reflexivity. Qed.

Lemma shown_after_fig2_globals n r0 r1 xs i s :
  let s' := add_events [EShow] (after_fig2 n r0 r1 (xs ++ [i]) s) in
  globals s' !! "i" = Some (VInt i)
  /\ globals s' !! "t" = Some (VNum (fig2_t i))
  /\ globals s' !! "x" = Some (VNum (fig2_x n r0 i))
  /\ globals s' !! "y" = Some (VNum (fig2_y n r1 i))
  /\ forall k, k ≠ "i" -> k ≠ "t" -> k ≠ "x" -> k ≠ "y" ->
       globals s' !! k = globals s !! k.
Proof.
  intros s'. subst s'. cbn [globals add_events].
  split; [|split; [|split; [|split]]].
  5: { intros k Hi Ht Hx Hy. now apply after_fig2_frame. }
  all: rewrite after_fig2_last; generalize (after_fig2 n r0 r1 xs s);
    intros s1; unfold fig2_step; lookup_globals.
Qed.

Lemma after_figure2_globals s :
  globals (after_figure2 s) !! "n" = Some (VInt 100)
  /\ globals (after_figure2 s) !! "i" = Some (VInt 99)
  /\ globals (after_figure2 s) !! "t" = Some (VNum (fig2_t 99))
  /\ globals (after_figure2 s) !! "x"
     = Some (VNum (fig2_x 100 (r0_of (draws s)) 99))
  /\ globals (after_figure2 s) !! "y"
     = Some (VNum (fig2_y 100 (r1_of (draws s)) 99))
  /\ globals (after_figure2 s) !! "r0" = Some (VNum (r0_of (draws s)))
  /\ globals (after_figure2 s) !! "r1" = Some (VNum (r1_of (draws s))).
Proof.
  unfold after_figure2. rewrite indices_100_last.
  destruct (shown_after_fig2_globals 100 (r0_of (draws s)) (r1_of (draws s))
              (indices 99) 99 (after_line42 (with_figure s)))
    as (Hi & Ht & Hx & Hy & Hg).
  split; [|split; [exact Hi|split; [exact Ht|split; [exact Hx|split; [exact Hy|]]]]].
  - rewrite Hg by discriminate. unfold after_line42. lookup_globals.
  - split; (rewrite Hg by discriminate); unfold after_line42; lookup_globals.
Qed.

(** X11. After the plotting section the session holds the values of
    the last iteration of the second loop: [n] is 100, [i] is 99, and
    [t], [x], [y] are those computed for i = 99.  The name [x], bound by
    line 32 to the abscissa of the first figure, has been rebound by
    line 45; both libraries are still imported. *)
Theorem session_after_plotting_section (s : state) :
  "numpy" ∈ site_packages (env s) -> "matplotlib" ∈ site_packages (env s) ->
  let r0 := r0_of (draws s + 3) in
  let r1 := r1_of (draws s + 3) in
  exists s', exec Script.plots s = (Ok tt, s')
    /\ globals s' !! "n" = Some (VInt 100)
    /\ globals s' !! "i" = Some (VInt 99)
    /\ globals s' !! "t" = Some (VNum (fig2_t 99))
    /\ globals s' !! "x" = Some (VNum (fig2_x 100 r0 99))
    /\ globals s' !! "y" = Some (VNum (fig2_y 100 r1 99))
    /\ globals s' !! "r0" = Some (VNum r0)
    /\ globals s' !! "r1" = Some (VNum r1)
    /\ globals s' !! "x" ≠ Some (VNum fig1_x)
    /\ plt_imported s' /\ numpy_imported s'.
Proof.
  intros Hn Hm r0 r1. subst r0 r1.
  exists (after_figure2 (after_figure1 (with_imports s))).
  split; [now apply plots_run|].
  destruct (after_figure1_frame (with_imports s)) as (_ & Hd & _ & Hg1).
  cbn [with_imports set_global draws] in Hd.
  destruct (after_figure2_globals (after_figure1 (with_imports s)))
    as (Gn & Gi & Gt & Gx & Gy & G0 & G1).
  rewrite Hd in Gx, Gy, G0, G1.
  destruct (after_figure2_frame (after_figure1 (with_imports s)))
    as (_ & _ & _ & Hg2).
  generalize dependent (after_figure2 (after_figure1 (with_imports s))).
  intros s2 Gn Gi Gt Gx Gy G0 G1 Hg2.
  split; [exact Gn|]. split; [exact Gi|]. split; [exact Gt|].
  split; [exact Gx|]. split; [exact Gy|]. split; [exact G0|].
  split; [exact G1|]. split; [rewrite Gx; discriminate|].
  unfold plt_imported, numpy_imported.
  rewrite !Hg2 by discriminate. rewrite !Hg1 by discriminate.
  unfold with_imports. split; lookup_globals.
Qed.

Lemma session_after_plotting_section_witness :
  "numpy" ∈ site_packages (env (initial equipped))
  /\ "matplotlib" ∈ site_packages (env (initial equipped))
  /\ (let r0 := r0_of (draws (initial equipped) + 3) in
      let r1 := r1_of (draws (initial equipped) + 3) in
      exists s', exec Script.plots (initial equipped) = (Ok tt, s')
        /\ globals s' !! "n" = Some (VInt 100)
        /\ globals s' !! "i" = Some (VInt 99)
        /\ globals s' !! "t" = Some (VNum (fig2_t 99))
        /\ globals s' !! "x" = Some (VNum (fig2_x 100 r0 99))
        /\ globals s' !! "y" = Some (VNum (fig2_y 100 r1 99))
        /\ globals s' !! "r0" = Some (VNum r0)
        /\ globals s' !! "r1" = Some (VNum r1)
        /\ globals s' !! "x" ≠ Some (VNum fig1_x)
        /\ plt_imported s' /\ numpy_imported s').
Proof.
  assert (Hn : "numpy" ∈ site_packages (env (initial equipped)))
    by (vm_compute; apply list_elem_of_here).
  assert (Hm : "matplotlib" ∈ site_packages (env (initial equipped)))
    by (vm_compute; apply list_elem_of_further, list_elem_of_here).
  split; [exact Hn|]. split; [exact Hm|].
  exact (session_after_plotting_section (initial equipped) Hn Hm).
Defined.
